(** * Trace: the file-locked error message template

    Shallow embedding of [error_messages.py] and the properties of its one
    function, [get_file_locked_message].

    The function body is a single f-string with three parts: a literal, the
    replacement field [{filepath}] and a second literal.  Python evaluates
    such a string part by part, left to right: a literal contributes its
    text, a replacement field contributes its value formatted with the
    empty format specification, and the pieces are concatenated.  The
    parameter is untyped in the source, so the embedding keeps a value type with two shapes: an exact [str], whose
    built-in formatting is the identity, and any other object, which is
    given by its [__format__] method and may do anything a method can do
    (change the program state, raise).  Evaluation therefore lives in a
    state-and-exception monad over an arbitrary program state. *)

Set Warnings "-notation-overridden,-rewrite-rw".
From Stdlib Require Import String Ascii.
From mathcomp Require Import ssreflect ssrfun ssrbool eqtype ssrnat seq.

Set Implicit Arguments.
Unset Strict Implicit.
Unset Printing Implicit Defensive.

(** ** Text *)

(** A Python [str] is a finite sequence of Unicode code points.  Code points
    are kept as natural numbers; nothing below depends on their range. *)
Definition codepoint : Type := nat.
Definition str : Type := seq codepoint.

(** The code points of a piece of ASCII source text. *)
Definition literal (s : string) : str :=
  [seq nat_of_ascii c | c <- list_ascii_of_string s].

(** U+000A LINE FEED, written [\n] in Python. *)
Definition LF : codepoint := 10.

(** U+0022 QUOTATION MARK. *)
Definition QUOTE : codepoint := 34.

(** [text.split("\n")]: the pieces of [text] between line feeds.  A text
    with [n] line feeds has [n + 1] pieces, some of them possibly empty. *)
Fixpoint split_lines (text : str) : seq str :=
  if text is c :: text' then
    if c == LF then [::] :: split_lines text'
    else if split_lines text' is line :: lines then (c :: line) :: lines
    else [:: [:: c]]
  else [:: [::]].

(** ** Evaluation *)

Section Evaluation.

(** Everything a Python program can observe besides the value returned:
    globals, heap objects, open files, ...  It is left abstract. *)
Variable State : Type.

(** A computation either returns a value or raises an exception (given by
    its name); either way it leaves a program state behind. *)
Inductive outcome (A : Type) : Type :=
| Returned of A
| Raised of str.

Arguments Raised {A} _.

Definition M (A : Type) : Type := State -> outcome A * State.

Definition ret {A : Type} (a : A) : M A := fun st => (Returned a, st).

Definition bind {A B : Type} (m : M A) (k : A -> M B) : M B :=
  fun st =>
    match m st with
    | (Returned a, st') => k a st'
    | (Raised e, st') => (Raised e, st')
    end.

Notation "x <- m ;; k" := (bind m (fun x => k))
  (at level 100, m at next level, right associativity).

(** The values the parameter [filepath] can be bound to.  A value whose
    type is exactly [str] is formatted by the built-in, which hands the
    string back; anything else (an instance of a subclass of [str]
    included) is formatted by a [__format__] method of its own. *)
Inductive pyval : Type :=
| PyStr of str                  (* an exact [str] *)
| PyObj of (str -> M str).      (* any other object: its [__format__] *)

(** The built-in [format] applied to [v] and the empty format
    specification, as the f-string calls it for a replacement field that has
    neither a conversion nor a format specification. *)
Definition format_value (v : pyval) : M str :=
  match v with
  | PyStr s => ret s
  | PyObj fmt => fmt [::]
  end.

(** The parts of an f-string. *)
Inductive fpart : Type :=
| Lit of str                    (* literal text *)
| Field of pyval.               (* [{expr}], with [expr] already looked up *)

Definition eval_part (part : fpart) : M str :=
  match part with
  | Lit s => ret s
  | Field v => format_value v
  end.

(** An f-string: its parts are evaluated from left to right and joined. *)
Fixpoint joined_str (parts : seq fpart) : M str :=
  if parts is part :: rest then
    s <- eval_part part ;;
    r <- joined_str rest ;;
    ret (s ++ r)
  else ret [::].

(** ** The source function *)

(** The literal in front of [{filepath}].  The triple-quoted string starts
    right after the opening quotes, so its first character is the line
    break that follows them. *)
Definition message_head : str :=
  literal "
File Save Error

The file could not be saved because it is currently open in another program.

Please close the file " ++ [:: QUOTE].

(** The literal behind [{filepath}], up to the closing quotes. *)
Definition message_tail : str :=
  QUOTE :: literal " and try again.
".

(** [get_file_locked_message(filepath)]. *)
Definition get_file_locked_message (filepath : pyval) : M str :=
  joined_str [:: Lit message_head; Field filepath; Lit message_tail].

(** ** The message as the specification words it *)

(** The fixed text in front of the path, written with escapes. *)
Definition template_prefix : str :=
  LF :: literal "File Save Error" ++ [:: LF; LF]
    ++ literal "The file could not be saved because it is currently open in another program."
    ++ [:: LF; LF]
    ++ literal "Please close the file " ++ [:: QUOTE].

(** The fixed text behind the path. *)
Definition template_suffix : str :=
  QUOTE :: literal " and try again." ++ [:: LF].

(** The statement that saving failed. *)
Definition save_failed_statement : str :=
  literal "The file could not be saved because it is currently open in another program.".

(** The instruction to close the file called [name] and to retry. *)
Definition close_instruction (name : str) : str :=
  literal "Please close the file " ++ QUOTE :: name
    ++ QUOTE :: literal " and try again.".

(** A text is multi-line when a line feed occurs in it and at least two of
    the lines it separates have text on them. *)
Definition multi_line (text : str) : bool :=
  (LF \in text) && (1 < count (fun line => line != [::]) (split_lines text)).

(** ** Evaluating the call *)

Lemma Returned_inj (A : Type) (a b : A) : Returned a = Returned b -> a = b.
Proof. by case. Qed.

(** On an exact [str] the call returns the two literals around the
    argument and hands the program state back as it got it. *)
Lemma call_on_str (p : str) (st : State) :
  get_file_locked_message (PyStr p) st =
  (Returned (message_head ++ p ++ message_tail), st).
Proof.
rewrite /get_file_locked_message /joined_str /eval_part /format_value.
by rewrite /bind /ret cats0.
Qed.

(** The two literals of the source, read with their line breaks and
    quotation marks spelled out. *)
Lemma message_head_escaped : message_head = template_prefix.
Proof. by []. Qed.

Lemma message_tail_escaped : message_tail = template_suffix.
Proof. by []. Qed.

(** An object that is not a [str] can make the call raise ... *)
Remark call_on_object_may_raise (e : str) (st : State) :
  get_file_locked_message (PyObj (fun _ st' => (Raised e, st'))) st =
  (Raised e, st).
Proof. by []. Qed.

(** ... and can make it change the program state. *)
Remark call_on_object_may_write (s : str) (st st' : State) :
  (get_file_locked_message (PyObj (fun _ _ => (Returned s, st'))) st).2 = st'.
Proof. by []. Qed.

(** ** Cancelling a common prefix or suffix *)

Lemma cat_prefix_inj (T : Type) (a s t : seq T) : a ++ s = a ++ t -> s = t.
Proof. by elim: a => [|x a IH] //= [] /IH. Qed.

Lemma cat_suffix_inj (T : Type) (b s t : seq T) : s ++ b = t ++ b -> s = t.
Proof.
move/(congr1 rev); rewrite !rev_cat => /cat_prefix_inj /(congr1 rev).
by rewrite !revK.
Qed.

(** ** Lines *)

Lemma split_lines_line (line rest : str) :
  LF \notin line ->
  split_lines (line ++ LF :: rest) = line :: split_lines rest.
Proof.
elim: line => [|c line IH] //=.
rewrite inE negb_or eq_sym => /andP[/negPf -> /IH ->].
by [].
Qed.

(** ** The claims *)

(** C1.  For every string [p], the text returned by
    [get_file_locked_message(p)] contains [p] itself as a contiguous run of
    characters: nothing is escaped, cut off or changed. *)
Theorem message_contains_path (p : str) (st : State) :
  exists msg : str,
    (get_file_locked_message (PyStr p) st).1 = Returned msg /\ infix p msg.
Proof.
exists (message_head ++ p ++ message_tail); split; last exact: infix_infix.
by rewrite call_on_str.
Qed.

(** C2.  For every string, the empty one included, the call returns a
    string: evaluation never takes the raising branch. *)
Theorem call_on_str_returns (p : str) (st : State) :
  (exists msg : str, (get_file_locked_message (PyStr p) st).1 = Returned msg)
  /\ (forall e : str, (get_file_locked_message (PyStr p) st).1 <> Raised e)
  /\ (exists msg : str,
        (get_file_locked_message (PyStr [::]) st).1 = Returned msg).
Proof.
rewrite !call_on_str /=; split; first by eexists.
by split; last by eexists.
Qed.

(** C3.  For every string [p], the message is exactly the fixed prefix,
    then [p], then the fixed suffix. *)
Theorem message_is_template (p : str) (st : State) :
  (get_file_locked_message (PyStr p) st).1 =
  Returned (template_prefix ++ p ++ template_suffix).
Proof.
by rewrite call_on_str message_head_escaped message_tail_escaped.
Qed.

(** C4.  For the input [/tmp/report.docx], one of the lines of the message
    is [Please close the file "/tmp/report.docx" and try again.] *)
Theorem report_docx_line (st : State) :
  exists msg : str,
    (get_file_locked_message (PyStr (literal "/tmp/report.docx")) st).1
      = Returned msg
    /\ close_instruction (literal "/tmp/report.docx") \in split_lines msg.
Proof.
eexists; split; first by rewrite call_on_str.
by [].
Qed.

(** C5.  For the empty input the message contains the instruction with
    nothing between its two quotation marks, and it is the same template as
    for any other input, instantiated at the empty string. *)
Theorem empty_path_message (st : State) :
  exists msg : str,
    (get_file_locked_message (PyStr [::]) st).1 = Returned msg
    /\ msg = template_prefix ++ [::] ++ template_suffix
    /\ infix (close_instruction [::]) msg.
Proof.
eexists; split; first by rewrite call_on_str.
by [].
Qed.

Lemma split_lines_LF (rest : str) :
  split_lines (LF :: rest) = [::] :: split_lines rest.
Proof. by []. Qed.

(** The message cut into its lines up to the one that names the file. *)
Lemma message_layout (p : str) :
  message_head ++ p ++ message_tail =
  LF :: literal "File Save Error"
    ++ LF :: LF :: save_failed_statement
    ++ LF :: LF :: close_instruction p ++ [:: LF].
Proof.
have regroup (a b c d e : str) (x : codepoint) :
    (x :: a ++ x :: x :: b ++ x :: x :: c ++ d) ++ p ++ e
    = x :: a ++ x :: x :: b ++ x :: x :: (c ++ d ++ p ++ e).
  by rewrite !(cat_cons, =^~ catA).
have -> : message_head =
    LF :: literal "File Save Error" ++ LF :: LF :: save_failed_statement
      ++ LF :: LF :: literal "Please close the file " ++ [:: QUOTE] by [].
have -> : message_tail = QUOTE :: literal " and try again." ++ [:: LF] by [].
by rewrite regroup /close_instruction !(cat_cons, =^~ catA).
Qed.

(** The lines of the message: a blank line, the header, a blank line, the
    statement, a blank line, and then whatever lines the instruction with
    the path in it makes. *)
Lemma message_lines (p : str) :
  split_lines (message_head ++ p ++ message_tail) =
  [:: [::], literal "File Save Error", [::], save_failed_statement, [::]
    & split_lines (close_instruction p ++ [:: LF])].
Proof.
rewrite message_layout split_lines_LF.
rewrite (@split_lines_line (literal "File Save Error")); first by [].
rewrite split_lines_LF.
rewrite (@split_lines_line save_failed_statement); first by [].
by rewrite split_lines_LF.
Qed.

(** C6.  For every string [p] the message is multi-line, it says that the
    file could not be saved because it is open in another program, and it
    tells the user to close the file [p] and to try again. *)
Theorem message_is_multi_line_notice (p : str) (st : State) :
  exists msg : str,
    (get_file_locked_message (PyStr p) st).1 = Returned msg
    /\ multi_line msg
    /\ infix save_failed_statement msg
    /\ infix (close_instruction p) msg.
Proof.
exists (message_head ++ p ++ message_tail); split; first by rewrite call_on_str.
split; first by rewrite /multi_line message_lines mem_cat.
rewrite message_layout; split; apply/infixP.
- by exists (LF :: literal "File Save Error" ++ [:: LF; LF]),
            (LF :: LF :: close_instruction p ++ [:: LF]); rewrite /= -catA.
- exists (LF :: literal "File Save Error" ++ LF :: LF :: save_failed_statement
          ++ [:: LF; LF]), [:: LF].
  by rewrite !(cat_cons, =^~ catA).
Qed.

(** C7.  The call is deterministic: the string it returns for [p] is the
    same whatever the program state it is evaluated in. *)
Theorem call_is_deterministic (p : str) (st1 st2 : State) :
  (get_file_locked_message (PyStr p) st1).1
  = (get_file_locked_message (PyStr p) st2).1.
Proof. by rewrite !call_on_str. Qed.

(** C8.  The call is a pure function from text to text: it has no side
    effect, so the program state after it is the program state before it,
    and on strings it is the plain return of a function of its argument. *)
Theorem call_is_pure (p : str) (st : State) :
  (get_file_locked_message (PyStr p) st).2 = st
  /\ exists f : str -> str,
       forall (q : str) (st' : State),
         get_file_locked_message (PyStr q) st' = ret (f q) st'.
Proof.
rewrite call_on_str; split; first by [].
exists (fun q => message_head ++ q ++ message_tail) => q st'.
exact: call_on_str.
Qed.

(** C9.  The call is injective: two strings with the same message are the
    same string. *)
Theorem message_injective (p q : str) (st1 st2 : State) :
  (get_file_locked_message (PyStr p) st1).1
  = (get_file_locked_message (PyStr q) st2).1 ->
  p = q.
Proof.
rewrite !call_on_str => same.
apply: (@cat_suffix_inj _ message_tail); apply: (@cat_prefix_inj _ message_head).
exact: Returned_inj same.
Qed.

(** C10.  For every string [p], the message starts with a line feed that
    is followed at once by the header line [File Save Error], and its last
    character is a line feed. *)
Theorem message_frame (p : str) (st : State) :
  exists msg : str,
    (get_file_locked_message (PyStr p) st).1 = Returned msg
    /\ prefix (LF :: literal "File Save Error" ++ [:: LF]) msg
    /\ suffix [:: LF] msg.
Proof.
exists (message_head ++ p ++ message_tail); split; first by rewrite call_on_str.
rewrite message_layout; split.
- apply/prefixP.
  exists (LF :: save_failed_statement
          ++ LF :: LF :: close_instruction p ++ [:: LF]).
  by rewrite !(cat_cons, =^~ catA).
- apply/suffixP.
  exists (LF :: literal "File Save Error" ++ LF :: LF :: save_failed_statement
          ++ LF :: LF :: close_instruction p).
  by rewrite !(cat_cons, =^~ catA).
Qed.

(** ** Beyond strings: what the replacement field does to any value *)

(** X1.  Whatever the argument is, if formatting it returns the text [s]
    and leaves the program in state [st'], the call returns the two source
    literals around [s] and leaves the program in [st'] as well: formatting
    the argument is the only thing the call does to the program. *)
Theorem call_wraps_formatted_value (v : pyval) (s : str) (st st' : State) :
  format_value v st = (Returned s, st') ->
  get_file_locked_message v st =
  (Returned (message_head ++ s ++ message_tail), st').
Proof.
rewrite /get_file_locked_message /joined_str /eval_part.
by rewrite /bind /ret => ->; rewrite cats0.
Qed.

(** X2.  If formatting the argument raises, the call raises the same
    exception and builds no message; the state is the one the failed
    formatting left behind. *)
Theorem call_propagates_exception (v : pyval) (e : str) (st st' : State) :
  format_value v st = (Raised e, st') ->
  get_file_locked_message v st = (Raised e, st').
Proof.
rewrite /get_file_locked_message /joined_str /eval_part.
by rewrite /bind /ret => ->.
Qed.

(** ** Where the path sits and how long the message is *)

(** X3.  The message is 136 characters longer than the path. *)
Theorem message_size (p : str) (st : State) :
  exists msg : str,
    (get_file_locked_message (PyStr p) st).1 = Returned msg
    /\ size msg = 136 + size p.
Proof.
exists (message_head ++ p ++ message_tail); split; first by rewrite call_on_str.
rewrite (size_cat message_head) (size_cat p) addnCA.
have -> : size message_head = 119 by [].
have -> : size message_tail = 17 by [].
by rewrite addnC.
Qed.

(** X4.  The path can be read back from the message: it is what is left
    after dropping the first 119 characters and the last 17. *)
Theorem path_read_back (p : str) (st : State) :
  exists msg : str,
    (get_file_locked_message (PyStr p) st).1 = Returned msg
    /\ take (size msg - 136) (drop 119 msg) = p.
Proof.
exists (message_head ++ p ++ message_tail); split; first by rewrite call_on_str.
rewrite (@drop_size_cat _ 119 message_head) //.
rewrite (size_cat message_head) (size_cat p) addnCA.
have -> : size message_head = 119 by [].
have -> : size message_tail = 17 by [].
by rewrite (@addnK 136) take_size_cat.
Qed.

(** ** The lines of the message *)


(** A text has one piece more than it has line feeds. *)
Lemma size_split_lines (text : str) :
  size (split_lines text) = (count_mem LF text).+1.
Proof.
elim: text => [|c text IH] //=.
case: ifP => [_|_] /=; first by rewrite IH add1n.
by case: (split_lines text) IH => [|line lines] //= ->; rewrite add0n.
Qed.

Lemma LF_in_close_instruction (p : str) :
  (LF \in close_instruction p) = (LF \in p).
Proof.
rewrite /close_instruction mem_cat inE mem_cat inE.
have -> : (LF \in literal "Please close the file ") = false by [].
have -> : (LF \in literal " and try again.") = false by [].
by rewrite /= orbF.
Qed.

(** X5.  For a path without a line feed the message is exactly seven
    pieces between line feeds: an empty one, the header, an empty one, the
    statement, an empty one, the instruction naming the path, and the empty
    piece behind the final line feed. *)
Theorem message_lines_of_plain_path (p : str) (st : State) :
  LF \notin p ->
  exists msg : str,
    (get_file_locked_message (PyStr p) st).1 = Returned msg
    /\ split_lines msg =
       [:: [::]; literal "File Save Error"; [::]; save_failed_statement;
           [::]; close_instruction p; [::]].
Proof.
move=> plain.
exists (message_head ++ p ++ message_tail); split; first by rewrite call_on_str.
rewrite message_lines split_lines_line //.
by rewrite LF_in_close_instruction.
Qed.


(** X7.  The message has six line feeds more than the path, so split at
    line feeds it has seven pieces plus one for each line feed of the
    path. *)
Theorem message_line_count (p : str) (st : State) :
  exists msg : str,
    (get_file_locked_message (PyStr p) st).1 = Returned msg
    /\ count_mem LF msg = 6 + count_mem LF p
    /\ size (split_lines msg) = 7 + count_mem LF p.
Proof.
exists (message_head ++ p ++ message_tail); split; first by rewrite call_on_str.
have feeds : count_mem LF (message_head ++ p ++ message_tail)
             = 6 + count_mem LF p.
  rewrite (count_cat _ message_head) (count_cat _ p) addnCA.
  have -> : count_mem LF message_head = 5 by [].
  have -> : count_mem LF message_tail = 1 by [].
  by rewrite addnC.
by rewrite size_split_lines feeds.
Qed.

End Evaluation.

Arguments Raised {A} _.

(** ** A run on a concrete path *)

(** [message_injective] at the path [/tmp/report.docx], in a program whose
    state is a counter. *)
Lemma message_injective_report_docx :
  (get_file_locked_message (PyStr nat (literal "/tmp/report.docx")) 0).1
  = (get_file_locked_message (PyStr nat (literal "/tmp/report.docx")) 1).1
  /\ literal "/tmp/report.docx" = literal "/tmp/report.docx".
Proof.
split; first by [].
apply: (@message_injective nat (literal "/tmp/report.docx")
          (literal "/tmp/report.docx") 0 1).
reflexivity.
Defined.

(** ** Runs on values that are not strings *)

(** [call_wraps_formatted_value] at a path object in a program that counts
    the calls of [__format__]: the method returns the text [a.txt] and adds
    one to the counter, and after the call it has run once. *)
Lemma call_on_counting_path :
  format_value
    (PyObj (fun _ calls => (Returned (literal "a.txt"), calls.+1))) 0
  = (Returned (literal "a.txt"), 1)
  /\ get_file_locked_message
       (PyObj (fun _ calls => (Returned (literal "a.txt"), calls.+1))) 0
     = (Returned (message_head ++ literal "a.txt" ++ message_tail), 1).
Proof.
split; first by [].
apply: (@call_wraps_formatted_value nat
          (PyObj (fun _ calls => (Returned (literal "a.txt"), calls.+1)))
          (literal "a.txt") 0 1).
reflexivity.
Defined.

(** [call_propagates_exception] at an object whose [__format__] adds one
    to the counter and then raises [TypeError]. *)
Lemma call_on_failing_path :
  format_value
    (PyObj (fun _ calls => (Raised (literal "TypeError"), calls.+1))) 0
  = (Raised (literal "TypeError"), 1)
  /\ get_file_locked_message
       (PyObj (fun _ calls => (Raised (literal "TypeError"), calls.+1))) 0
     = (Raised (literal "TypeError"), 1).
Proof.
split; first by [].
apply: (@call_propagates_exception nat
          (PyObj (fun _ calls => (Raised (literal "TypeError"), calls.+1)))
          (literal "TypeError") 0 1).
reflexivity.
Defined.

(** [message_lines_of_plain_path] at [/tmp/report.docx]. *)
Lemma lines_for_report_docx :
  LF \notin literal "/tmp/report.docx"
  /\ exists msg : str,
       (get_file_locked_message (PyStr nat (literal "/tmp/report.docx")) 0).1
         = Returned msg
       /\ split_lines msg =
          [:: [::]; literal "File Save Error"; [::]; save_failed_statement;
              [::]; close_instruction (literal "/tmp/report.docx"); [::]].
Proof.
split; first by [].
apply: (@message_lines_of_plain_path nat (literal "/tmp/report.docx") 0).
reflexivity.
Defined.

